(** * yoastseo: keyphrase in the SEO title, and the "other" inclusive-language rules

    A shallow embedding of
    - [languageProcessing/researches/findKeyphraseInSEOTitle.js]
      ([stripFunctionWordsFromStart], [adjustPosition], [findKeyphraseInSEOTitle]
      and the module-level variable [functionWords]);
    - [scoring/assessments/inclusiveLanguage/configuration/otherAssessments.js]
      (the rule table).

    JavaScript strings are embedded as [string]; numbers that the research
    handles (occurrence counts, character offsets, percentages) as [Z]. *)

From Stdlib Require Import ZArith List Bool Ascii String Lia.
Import ListNotations.

Local Open Scope string_scope.
Local Open Scope list_scope.
Local Open Scope Z_scope.

(* ===================================================================== *)
(** ** Built-ins of the host language *)
(* ===================================================================== *)

Module JS.

(** [s.substr( 0, n )]: the first [n] characters of [s], all of [s] when it
    is shorter, and the empty string when [n] is negative. *)
Definition substr0 (s : string) (n : Z) : string :=
  String.substring 0 (Z.to_nat n) s.

(** [ToBoolean] of an object reference.  Every object is truthy, whatever
    its fields hold. *)
Definition truthy_object {A : Type} (_ : A) : bool := true.

(** Reading a numeric property of a string primitive.  A string has a
    [length]; any other name (such as [count] or [position]) is looked up
    on [String.prototype], is not found, and evaluates to [undefined],
    which is [None] here. *)
Definition string_prop (s : string) (name : string) : option Z :=
  if String.eqb name "length" then Some (Z.of_nat (String.length s)) else None.

(** [v > 0] where [v] is a number or [undefined]; [undefined > 0] compares
    [NaN] with [0] and is false. *)
Definition gt_zero (v : option Z) : bool :=
  match v with
  | Some n => 0 <? n
  | None => false
  end.

End JS.

(* ===================================================================== *)
(** ** The functions imported from lodash-es *)
(* ===================================================================== *)

Module Lodash.

(** The class [[\\^$.*+?()[\]{}|]] of [reRegExpChar]. *)
Definition reRegExpChar (c : ascii) : bool :=
  existsb (Ascii.eqb c) (list_ascii_of_string "\^$.*+?()[]{}|").

(** [escapeRegExp( s )] is [s.replace( reRegExpChar, "\\$&" )]: every
    character of the class gets a backslash in front of it. *)
Fixpoint escapeRegExp (s : string) : string :=
  match s with
  | EmptyString => EmptyString
  | String c s' =>
      if reRegExpChar c
      then String "\" (String c (escapeRegExp s'))
      else String c (escapeRegExp s')
  end.

(** Strings that [escapeRegExp] has nothing to do on. *)
Fixpoint plain (s : string) : bool :=
  match s with
  | EmptyString => true
  | String c s' => negb (reRegExpChar c) && plain s'
  end.

(** [includes( collection, value )] on an array of strings. *)
Definition includes (collection : list string) (value : string) : bool :=
  existsb (String.eqb value) collection.

(** [filter( collection, predicate )] on an array. *)
Definition filter {A : Type} (collection : list A) (predicate : A -> bool) : list A :=
  List.filter predicate collection.

(** [isEmpty( value )] on an array. *)
Definition isEmpty {A : Type} (value : list A) : bool :=
  match value with
  | [] => true
  | _ :: _ => false
  end.

End Lodash.

(* ===================================================================== *)
(** ** Data of the research *)
(* ===================================================================== *)

(** The getters of a paper that the research calls. *)
Record Paper := mkPaper {
  getKeyword : string;
  getTitle : string;
  getLocale : string
}.

(** The morphology research result: the forms of every content word of the
    keyphrase, and the same for every synonym. *)
Record TopicForms := mkTopicForms {
  keyphraseForms : list (list string);
  synonymsForms : list (list (list string))
}.

(** The researcher: [getConfig( name )] and [getResearch( name )]. *)
Record Researcher := mkResearcher {
  getConfig : string -> list string;
  getResearch : string -> TopicForms
}.

(** What [matchTextWithWord] returns, as far as the research reads it. *)
Module WordMatch.
Record t := mk { count : Z; position : Z }.
End WordMatch.

(** What [findTopicFormsInString] returns. *)
Record TopicMatch := mkTopicMatch {
  countWordMatches : Z;
  percentWordMatches : Z
}.

(** What [processExactMatchRequest] returns. *)
Record ExactMatchRequest := mkExactMatchRequest {
  exactMatchRequested : bool;
  keyphrase : string
}.

(** A custom word-matching helper of a language; the research passes [false]
    in its place, which is [None]. *)
Definition MatchWordCustomHelper : Type := string -> string -> list string.

(** Modelled from the spec: the constant [WORD_BOUNDARY_WITH_HYPHEN] of
    [config/wordBoundariesWithoutPunctuation] is not part of the sources at
    hand; the spec describes the boundary policies as a small enumeration,
    "plain whitespace vs. whitespace+hyphen+en-dash". *)
Inductive BoundaryPolicy : Type :=
| WORD_BOUNDARY_PLAIN
| WORD_BOUNDARY_WITH_HYPHEN.

(** The object literal [result] of the research. *)
Record MatchResult := mkMatchResult {
  exactMatchFound : bool;
  allWordsFound : bool;
  position : Z;
  exactMatchKeyphrase : bool
}.

(** Assignments to the fields of [result]. *)
Definition set_exactMatchFound (b : bool) (r : MatchResult) : MatchResult :=
  mkMatchResult b (allWordsFound r) (position r) (exactMatchKeyphrase r).

Definition set_allWordsFound (b : bool) (r : MatchResult) : MatchResult :=
  mkMatchResult (exactMatchFound r) b (position r) (exactMatchKeyphrase r).

Definition set_position (p : Z) (r : MatchResult) : MatchResult :=
  mkMatchResult (exactMatchFound r) (allWordsFound r) p (exactMatchKeyphrase r).

Definition set_exactMatchKeyphrase (b : bool) (r : MatchResult) : MatchResult :=
  mkMatchResult (exactMatchFound r) (allWordsFound r) (position r) b.

(** The module-level state: [let functionWords = [];]. *)
Record ModuleState := mkModuleState {
  functionWords : list string
}.

Definition initialState : ModuleState := mkModuleState [].

(** The helpers that the research imports from the rest of the package, and
    the two string methods of the host that depend on its locale data. *)
Class Helpers : Type := {
  (** [helpers/match/matchTextWithWord]:
      [wordMatch( text, wordToMatch, locale, matchWordCustomHelper )]. *)
  wordMatch : string -> string -> string -> option MatchWordCustomHelper -> WordMatch.t;
  (** [helpers/match/findKeywordFormsInString]:
      [findTopicFormsInString( topicForms, text, useSynonyms, locale, matchWordCustomHelper )]. *)
  findTopicFormsInString :
    TopicForms -> string -> bool -> string -> option MatchWordCustomHelper -> TopicMatch;
  (** [helpers/match/processExactMatchRequest]. *)
  processExactMatchRequest : string -> ExactMatchRequest;
  (** [helpers/word/getWords]: [getWords( text, wordBoundaryRegexString )]. *)
  getWords : string -> BoundaryPolicy -> list string;
  (** [String.prototype.toLocaleLowerCase]. *)
  toLocaleLowerCase : string -> string;
  (** [String.prototype.trim]. *)
  trim : string -> string
}.

(* ===================================================================== *)
(** ** The research *)
(* ===================================================================== *)

Section Research.

Context {H : Helpers}.

(** Whether the string consists of function words only.  The function
    reads the module-level [functionWords]. *)
Definition stripFunctionWordsFromStart (st : ModuleState) (str : string) : bool :=
  let str := toLocaleLowerCase str in
  let titleWords := getWords (toLocaleLowerCase str) WORD_BOUNDARY_WITH_HYPHEN in
  let titleWords :=
    Lodash.filter titleWords
      (fun word =>
         negb (Lodash.includes (functionWords st) (toLocaleLowerCase (trim word)))) in
  Lodash.isEmpty titleWords.

(** The potentially adjusted position of the keyphrase in the SEO title. *)
Definition adjustPosition (st : ModuleState) (title : string) (position : Z) : Z :=
  if position =? 0 then position
  else if Z.of_nat (List.length (functionWords st)) =? 0 then position
  else
    let titleBeforeKeyword := JS.substr0 title position in
    if stripFunctionWordsFromStart st titleBeforeKeyword then 0 else position.

(** The research itself.  It assigns the module-level [functionWords]
    first, so it returns the new module state next to its result.

    In the branch under [! keywordMatched] the source binds
    [keywordMatchedBeforeSanitizing] to the string [keyword] and reads its
    [count] and [position]; these are property reads on a string, and the
    inner assignments need both to be numbers. *)
Definition findKeyphraseInSEOTitle
    (paper : Paper) (researcher : Researcher) (st : ModuleState)
  : MatchResult * ModuleState :=
  let st := mkModuleState (getConfig researcher "functionWords") in
  let keyword := Lodash.escapeRegExp (getKeyword paper) in
  let title := getTitle paper in
  let locale := getLocale paper in
  let result := mkMatchResult false false (-1) false in
  let exactMatchRequest := processExactMatchRequest keyword in
  let '(keyword, result) :=
    if exactMatchRequested exactMatchRequest
    then (keyphrase exactMatchRequest, set_exactMatchKeyphrase true result)
    else (keyword, result) in
  let keywordMatched := wordMatch title keyword locale None in
  if 0 <? WordMatch.count keywordMatched then
    let result := set_exactMatchFound true result in
    let result := set_allWordsFound true result in
    let result :=
      set_position (adjustPosition st title (WordMatch.position keywordMatched)) result in
    (result, st)
  else if negb (JS.truthy_object keywordMatched) then
    let keywordMatchedBeforeSanitizing := keyword in
    match JS.string_prop keywordMatchedBeforeSanitizing "count",
          JS.string_prop keywordMatchedBeforeSanitizing "position" with
    | Some count, Some position =>
        if JS.gt_zero (Some count) then
          let result := set_exactMatchFound true result in
          let result := set_allWordsFound true result in
          let result := set_position (adjustPosition st title position) result in
          (result, st)
        else (result, st)
    | _, _ => (result, st)
    end
  else
    let topicForms := getResearch researcher "morphology" in
    let useSynonyms := false in
    let separateWordsMatched :=
      findTopicFormsInString topicForms title useSynonyms locale None in
    if percentWordMatches separateWordsMatched =? 100
    then (set_allWordsFound true result, st)
    else (result, st).

End Research.

(* ===================================================================== *)
(** ** The research when a helper raises *)
(* ===================================================================== *)

(** The research has no [try]: an error that one of its helpers throws
    ends the research and reaches the caller.  The functions of the
    research are embedded here once more, over helpers whose calls either
    return a value or throw. *)
Module Throwing.

(** What a call comes to: the value it returns or the error it throws,
    given by its name. *)
Inductive Outcome (A : Type) : Type :=
| Returned (value : A)
| Thrown (error : string).

Arguments Returned {A} value.
Arguments Thrown {A} error.

Definition bind {A B : Type} (call : Outcome A) (rest : A -> Outcome B) : Outcome B :=
  match call with
  | Returned value => rest value
  | Thrown error => Thrown error
  end.

Notation "x <- call ;; rest" := (bind call (fun x => rest))
  (at level 61, call at next level, right associativity).

(** The imported helpers as calls that may throw; the two string methods
    of the host do not throw on strings. *)
Class Helpers : Type := {
  wordMatch :
    string -> string -> string -> option MatchWordCustomHelper -> Outcome WordMatch.t;
  findTopicFormsInString :
    TopicForms -> string -> bool -> string -> option MatchWordCustomHelper
    -> Outcome TopicMatch;
  processExactMatchRequest : string -> Outcome ExactMatchRequest;
  getWords : string -> BoundaryPolicy -> Outcome (list string);
  toLocaleLowerCase : string -> string;
  trim : string -> string
}.

Section Run.

Context {T : Helpers}.

Definition stripFunctionWordsFromStart (st : ModuleState) (str : string) : Outcome bool :=
  let str := toLocaleLowerCase str in
  titleWords <- getWords (toLocaleLowerCase str) WORD_BOUNDARY_WITH_HYPHEN ;;
  let titleWords :=
    Lodash.filter titleWords
      (fun word =>
         negb (Lodash.includes (functionWords st) (toLocaleLowerCase (trim word)))) in
  Returned (Lodash.isEmpty titleWords).

Definition adjustPosition (st : ModuleState) (title : string) (position : Z) : Outcome Z :=
  if position =? 0 then Returned position
  else if Z.of_nat (List.length (functionWords st)) =? 0 then Returned position
  else
    let titleBeforeKeyword := JS.substr0 title position in
    onlyFunctionWords <- stripFunctionWordsFromStart st titleBeforeKeyword ;;
    Returned (if onlyFunctionWords then 0 else position).

(** The module-level [functionWords] is assigned before the first helper
    is called, so the new module state is there also when a helper throws. *)
Definition findKeyphraseInSEOTitle
    (paper : Paper) (researcher : Researcher) (st : ModuleState)
  : Outcome MatchResult * ModuleState :=
  let st := mkModuleState (getConfig researcher "functionWords") in
  let keyword := Lodash.escapeRegExp (getKeyword paper) in
  let title := getTitle paper in
  let locale := getLocale paper in
  let result := mkMatchResult false false (-1) false in
  (exactMatchRequest <- processExactMatchRequest keyword ;;
   let '(keyword, result) :=
     if exactMatchRequested exactMatchRequest
     then (keyphrase exactMatchRequest, set_exactMatchKeyphrase true result)
     else (keyword, result) in
   keywordMatched <- wordMatch title keyword locale None ;;
   if 0 <? WordMatch.count keywordMatched then
     let result := set_exactMatchFound true result in
     let result := set_allWordsFound true result in
     adjusted <- adjustPosition st title (WordMatch.position keywordMatched) ;;
     Returned (set_position adjusted result)
   else if negb (JS.truthy_object keywordMatched) then
     let keywordMatchedBeforeSanitizing := keyword in
     match JS.string_prop keywordMatchedBeforeSanitizing "count",
           JS.string_prop keywordMatchedBeforeSanitizing "position" with
     | Some count, Some position =>
         if JS.gt_zero (Some count) then
           let result := set_exactMatchFound true result in
           let result := set_allWordsFound true result in
           adjusted <- adjustPosition st title position ;;
           Returned (set_position adjusted result)
         else Returned result
     | _, _ => Returned result
     end
   else
     let topicForms := getResearch researcher "morphology" in
     let useSynonyms := false in
     separateWordsMatched <-
       findTopicFormsInString topicForms title useSynonyms locale None ;;
     if percentWordMatches separateWordsMatched =? 100
     then Returned (set_allWordsFound true result)
     else Returned result,
   st).

End Run.

End Throwing.

(** Helpers that return on every call, as helpers that may throw. *)
Definition returning (H : Helpers) : Throwing.Helpers :=
  Throwing.Build_Helpers
    (fun text wordToMatch locale helper =>
       Throwing.Returned (wordMatch text wordToMatch locale helper))
    (fun topicForms text useSynonyms locale helper =>
       Throwing.Returned (findTopicFormsInString topicForms text useSynonyms locale helper))
    (fun keyword => Throwing.Returned (processExactMatchRequest keyword))
    (fun text policy => Throwing.Returned (getWords text policy))
    toLocaleLowerCase
    trim.

(* ===================================================================== *)
(** ** Reference helpers *)
(* ===================================================================== *)

(** The helpers of the research live in files of the package that are not
    among the sources at hand.  The theorems on the research hold for every
    [Helpers]; the ones below are a concrete choice that follows the spec's
    description of each component, used to run the research on inputs. *)
Module Model.

Definition upperAZ (c : ascii) : bool :=
  let n := N_of_ascii c in ((65 <=? n) && (n <=? 90))%N.

Definition lower_ascii (c : ascii) : ascii :=
  if upperAZ c then ascii_of_N (N_of_ascii c + 32) else c.

(** [toLocaleLowerCase] on the letters A to Z; other characters are kept. *)
Fixpoint toLocaleLowerCase (s : string) : string :=
  match s with
  | EmptyString => EmptyString
  | String c s' => String (lower_ascii c) (toLocaleLowerCase s')
  end.

(** Space, tab, line feed, vertical tab, form feed, carriage return. *)
Definition is_space (c : ascii) : bool :=
  let n := N_of_ascii c in ((n =? 32) || ((9 <=? n) && (n <=? 13)))%N.

Fixpoint trimStart (s : string) : string :=
  match s with
  | EmptyString => EmptyString
  | String c s' => if is_space c then trimStart s' else s
  end.

Fixpoint trimEnd (s : string) : string :=
  match s with
  | EmptyString => EmptyString
  | String c s' =>
      match trimEnd s' with
      | EmptyString => if is_space c then EmptyString else String c EmptyString
      | t => String c t
      end
  end.

(** [trim]: white space removed from both ends. *)
Definition trim (s : string) : string := trimEnd (trimStart s).

(** The en-dash U+2013 in UTF-8. *)
Definition enDash : string := String "226" (String "128" (String "147" EmptyString)).

(** The number of characters of the separator that [s] starts with, [0]
    when it starts with none. *)
Definition boundaryAt (policy : BoundaryPolicy) (s : string) : nat :=
  match s with
  | EmptyString => 0%nat
  | String c _ =>
      if is_space c then 1%nat
      else
        match policy with
        | WORD_BOUNDARY_PLAIN => 0%nat
        | WORD_BOUNDARY_WITH_HYPHEN =>
            if Ascii.eqb c "-" then 1%nat
            else if String.prefix enDash s then String.length enDash
            else 0%nat
        end
  end.

Definition flush (current : string) : list string :=
  match current with
  | EmptyString => []
  | _ => [current]
  end.

Fixpoint splitWords (policy : BoundaryPolicy) (skip : nat) (current : string) (s : string)
  : list string :=
  match s with
  | EmptyString => flush current
  | String c rest =>
      match skip with
      | S k => splitWords policy k current rest
      | O =>
          match boundaryAt policy s with
          | O => splitWords policy O (current ++ String c EmptyString)%string rest
          | S k => flush current ++ splitWords policy k EmptyString rest
          end
      end
  end.

(** Modelled from the spec: [helpers/word/getWords] is missing; the spec's
    WordTokenizer "splits a string into word tokens using locale- and
    boundary-aware rules (whitespace, hyphen, en-dash)", keeps the order of
    the tokens, and "empty input yields an empty sequence". *)
Definition getWords (text : string) (policy : BoundaryPolicy) : list string :=
  splitWords policy 0 EmptyString text.

(** The patterns of the search: a character, or the dot that stands for
    any character of a line. *)
Inductive PatternItem : Type :=
| Literal (c : ascii)
| AnyCharacter.

(** The search reads its word as a regular expression.  Of these only the
    characters, the characters behind a backslash (which is what
    [escapeRegExp] writes) and the dot are read here. *)
Fixpoint compile (pattern : string) : list PatternItem :=
  match pattern with
  | EmptyString => []
  | String c rest =>
      if Ascii.eqb c "\" then
        match rest with
        | EmptyString => [ Literal c ]
        | String escaped rest' => Literal escaped :: compile rest'
        end
      else if Ascii.eqb c "." then AnyCharacter :: compile rest
      else Literal c :: compile rest
  end.

Definition isLineEnd (c : ascii) : bool :=
  let n := N_of_ascii c in ((n =? 10) || (n =? 13))%N.

(** Does [hay] start with a match of [items]?  Letters match in either
    case. *)
Fixpoint matchesHere (items : list PatternItem) (hay : string) : bool :=
  match items, hay with
  | [], _ => true
  | _ :: _, EmptyString => false
  | Literal c :: items', String h hay' =>
      Ascii.eqb (lower_ascii c) (lower_ascii h) && matchesHere items' hay'
  | AnyCharacter :: items', String h hay' =>
      negb (isLineEnd h) && matchesHere items' hay'
  end.

(** The offsets of the non-overlapping matches of [items] in [hay], from
    left to right; [index] is the offset of the head of [hay]. *)
Fixpoint occurrences (items : list PatternItem) (skip : nat) (index : Z) (hay : string)
  : list Z :=
  match hay with
  | EmptyString => []
  | String _ rest =>
      match skip with
      | S k => occurrences items k (index + 1) rest
      | O =>
          if matchesHere items hay
          then index :: occurrences items (Nat.pred (List.length items)) (index + 1) rest
          else occurrences items 0 (index + 1) rest
      end
  end.

(** Modelled from the spec: [helpers/match/matchTextWithWord] is missing;
    the spec's PhraseLocator performs a case-insensitive "substring
    search", with the "regex metacharacters" of the phrase escaped by the
    caller, "so arbitrary user text is treated literally.  position is the
    character offset of the first match, or -1 if count == 0.  Multiple
    non-overlapping occurrences are all counted; only the first offset is
    reported." *)
Definition wordMatch
    (text wordToMatch locale : string) (matchWordCustomHelper : option MatchWordCustomHelper)
  : WordMatch.t :=
  match compile wordToMatch with
  | [] => WordMatch.mk 0 (-1)
  | items =>
      let found := occurrences items 0 0 text in
      WordMatch.mk (Z.of_nat (List.length found)) (List.hd (-1) found)
  end.

(** Whether the forms of one content word appear in the text. *)
Definition formsAppear (text locale : string) (forms : list string) : bool :=
  forallb (fun form => 0 <? WordMatch.count (wordMatch text form locale None)) forms.

(** The share of the content words whose forms appear, as a rounded
    percentage; [0] when there are no content words. *)
Definition coverage (text locale : string) (words : list (list string)) : TopicMatch :=
  let total := Z.of_nat (List.length words) in
  let matched := Z.of_nat (List.length (List.filter (formsAppear text locale) words)) in
  mkTopicMatch matched
    (if total =? 0 then 0 else (200 * matched + total) / (2 * total)).

Definition betterMatch (a b : TopicMatch) : TopicMatch :=
  if percentWordMatches a <? percentWordMatches b then b else a.

(** Modelled from the spec: [helpers/match/findKeywordFormsInString] is
    missing; the spec's coverage check computes "the percentage of the
    keyphrase's content words whose morphological forms all appear in the
    title", and without [useSynonyms] "only the literal keyphrase's own
    forms count". *)
Definition findTopicFormsInString
    (topicForms : TopicForms) (text : string) (useSynonyms : bool) (locale : string)
    (matchWordCustomHelper : option MatchWordCustomHelper)
  : TopicMatch :=
  let result := coverage text locale (keyphraseForms topicForms) in
  if useSynonyms
  then List.fold_left betterMatch
         (List.map (coverage text locale) (synonymsForms topicForms)) result
  else result.

(** Does [prefix ++ rest = s]? *)
Fixpoint stripPrefix (prefix s : string) : option string :=
  match prefix, s with
  | EmptyString, _ => Some s
  | String _ _, EmptyString => None
  | String a prefix', String c s' =>
      if Ascii.eqb a c then stripPrefix prefix' s' else None
  end.

(** Does [rest ++ suffix = s]? *)
Fixpoint stripSuffix (suffix s : string) : option string :=
  if String.eqb s suffix then Some EmptyString
  else
    match s with
    | EmptyString => None
    | String c s' => option_map (String c) (stripSuffix suffix s')
    end.

Definition straightQuote : string := String "034" EmptyString.
Definition leftCurlyQuote : string := String "226" (String "128" (String "156" EmptyString)).
Definition rightCurlyQuote : string := String "226" (String "128" (String "157" EmptyString)).

(** The matched pairs of quotation marks, straight and typographic. *)
Definition quotePairs : list (string * string) :=
  [ (straightQuote, straightQuote); (leftCurlyQuote, rightCurlyQuote) ].

Definition unwrap (quotes : string * string) (k : string) : option string :=
  match stripPrefix (fst quotes) k with
  | Some rest => stripSuffix (snd quotes) rest
  | None => None
  end.

Fixpoint firstUnwrap (pairs : list (string * string)) (k : string) : option string :=
  match pairs with
  | [] => None
  | quotes :: pairs' =>
      match unwrap quotes k with
      | Some inner => Some inner
      | None => firstUnwrap pairs' k
      end
  end.

(** Modelled from the spec: [helpers/match/processExactMatchRequest] is
    missing; the spec's ExactMatchRequestParser "detects a keyphrase fully
    wrapped in a matched pair of quotation marks (straight or typographic)
    and, if so, strips the quotes and sets exactMatchRequested = true;
    otherwise returns the original keyphrase unchanged with the flag
    false". *)
Definition processExactMatchRequest (k : string) : ExactMatchRequest :=
  match firstUnwrap quotePairs k with
  | Some inner => mkExactMatchRequest true inner
  | None => mkExactMatchRequest false k
  end.

Definition helpers : Helpers :=
  Build_Helpers wordMatch findTopicFormsInString processExactMatchRequest
    getWords toLocaleLowerCase trim.

(** A researcher with the given function words and keyphrase forms. *)
Definition researcher (functionWords : list string) (forms : list (list string))
  : Researcher :=
  mkResearcher (fun _ => functionWords) (fun _ => mkTopicForms forms []).

(** The research run with the reference helpers, from a fresh module. *)
Definition run (paper : Paper) (r : Researcher) : MatchResult :=
  fst (findKeyphraseInSEOTitle (H := helpers) paper r initialState).

Fixpoint hasBracket (pattern : string) : bool :=
  match pattern with
  | EmptyString => false
  | String c rest => Ascii.eqb c "[" || hasBracket rest
  end.

(** Is there a [+] or [*] right behind a [+], [*] or [?] that no backslash
    escapes?  [afterQuantifier] tells whether the character before
    [pattern] was such a quantifier. *)
Fixpoint nothingToRepeat (afterQuantifier : bool) (pattern : string) : bool :=
  match pattern with
  | EmptyString => false
  | String c rest =>
      if Ascii.eqb c "\" then
        match rest with
        | EmptyString => false
        | String _ rest' => nothingToRepeat false rest'
        end
      else if Ascii.eqb c "+" || Ascii.eqb c "*" then
        afterQuantifier || nothingToRepeat true rest
      else if Ascii.eqb c "?" then nothingToRepeat true rest
      else nothingToRepeat false rest
  end.

(** Patterns that are no regular expressions: a quantifier that has
    nothing to repeat, outside a character class.  There are more; these
    are the ones told apart here. *)
Definition rejected (pattern : string) : bool :=
  negb (hasBracket pattern) && nothingToRepeat false pattern.

(** The forms that the coverage check searches for. *)
Definition formsSearched (topicForms : TopicForms) (useSynonyms : bool) : list string :=
  List.concat (keyphraseForms topicForms)
    ++ (if useSynonyms then List.concat (List.concat (synonymsForms topicForms)) else []).

(** Modelled from the spec: the matching helpers are missing; in the spec
    "a phrase containing characters with special meaning to the matching
    mechanism must be escaped before searching" (section 7), the mechanism
    being regular expressions (section 4.4).  A word or a form that is no
    regular expression makes the helper that searches for it throw a
    SyntaxError; on the other calls the helpers return what the reference
    helpers return. *)
Definition throwing : Throwing.Helpers :=
  Throwing.Build_Helpers
    (fun text wordToMatch locale helper =>
       if rejected wordToMatch
       then Throwing.Thrown "SyntaxError"
       else Throwing.Returned (wordMatch text wordToMatch locale helper))
    (fun topicForms text useSynonyms locale helper =>
       if existsb rejected (formsSearched topicForms useSynonyms)
       then Throwing.Thrown "SyntaxError"
       else Throwing.Returned
              (findTopicFormsInString topicForms text useSynonyms locale helper))
    (fun keyword => Throwing.Returned (processExactMatchRequest keyword))
    (fun text policy => Throwing.Returned (getWords text policy))
    toLocaleLowerCase
    trim.

End Model.

(* ===================================================================== *)
(** ** The "other" inclusive-language assessments *)
(* ===================================================================== *)

Module InclusiveLanguage.

(** The two members of [SCORES] that the table uses. *)
Inductive Score : Type :=
| NON_INCLUSIVE
| POTENTIALLY_NON_INCLUSIVE.

(** A rule gets the words of the text and the words of one non-inclusive
    phrase, and returns the indices of the words where the phrase starts. *)
Definition Rule : Type := list string -> list string -> list nat.

(** An entry of the table.  [caseSensitive] and [rule] are present on some
    entries only; [category] and [learnMoreUrl] are assigned to every entry
    after the table is built.  The feedback texts are left out. *)
Record Assessment := mkAssessment {
  identifier : string;
  nonInclusivePhrases : list string;
  inclusiveAlternatives : list string;
  score : Score;
  caseSensitive : option bool;
  rule : option Rule;
  category : option string;
  learnMoreUrl : option string
}.

(** Is [phrase] what [words] starts with? *)
Fixpoint startsWith (phrase words : list string) : bool :=
  match phrase, words with
  | [], _ => true
  | _ :: _, [] => false
  | p :: phrase', w :: words' => String.eqb p w && startsWith phrase' words'
  end.

Fixpoint windowsFrom (index : nat) (phrase words : list string) : list nat :=
  match words with
  | [] => []
  | _ :: rest =>
      (if startsWith phrase words then [index] else [])
        ++ windowsFrom (S index) phrase rest
  end.

(** Modelled from the spec: [helpers/includesConsecutiveWords] is missing;
    the spec's engine finds "every contiguous token-window equal to the
    phrase's own tokenization". *)
Definition includesConsecutiveWords (words consecutiveWords : list string) : list nat :=
  windowsFrom 0 consecutiveWords words.

(** Modelled from the spec: the word tokens of the engine, split at white
    space. *)
Definition tokenize (text : string) : list string :=
  Model.getWords text WORD_BOUNDARY_PLAIN.

(** Are the words of [exception] the ones right in front of [index]? *)
Definition precededBy (words : list string) (index : nat) (exception : string) : bool :=
  let exceptionWords := tokenize exception in
  let n := List.length exceptionWords in
  (n <=? index)%nat && startsWith exceptionWords (List.skipn (index - n) words).

(** Modelled from the spec: [helpers/isPrecededByException] is missing;
    the spec's exception predicate keeps "only the matches it does not
    veto (e.g., normal person preceded immediately by mentally is
    excluded)". *)
Definition isNotPrecededByException (words : list string) (exceptions : list string)
  : nat -> bool :=
  fun index => negb (existsb (precededBy words index) exceptions).

(** The rule of the entries [normalPerson] and [normalPeople]. *)
Definition notAfterMentallyOrBehaviorally : Rule :=
  fun words nonInclusivePhrase =>
    List.filter
      (isNotPrecededByException words [ "mentally"; "behaviorally"; "behaviourally" ])
      (includesConsecutiveWords words nonInclusivePhrase).

Definition entry
    (identifier : string) (nonInclusivePhrases inclusiveAlternatives : list string)
    (score : Score) (caseSensitive : option bool) (rule : option Rule) : Assessment :=
  mkAssessment identifier nonInclusivePhrases inclusiveAlternatives score
    caseSensitive rule None None.

(** The array literal of the configuration file. *)
Definition entries : list Assessment :=
  [ entry "minorities" [ "minorities" ]
      [ "<i>members of the LGBTQ+ community</i>"; "<i>Indigenous peoples</i>";
        "<i>marginalized groups</i>"; "<i>religious minorities</i>" ]
      POTENTIALLY_NON_INCLUSIVE None None;
    entry "normalPerson" [ "normal person" ]
      [ "<i>typical person, average person</i> or describing the person's specific trait, experience, or behavior" ]
      NON_INCLUSIVE None (Some notAfterMentallyOrBehaviorally);
    entry "normalPeople" [ "normal people"; "Normal people" ]
      [ "<i>typical people, average people</i> or describing people's specific trait, experience, or behavior" ]
      NON_INCLUSIVE (Some true) (Some notAfterMentallyOrBehaviorally);
    entry "mentallyNormal" [ "mentally normal" ]
      [ "<i>people without mental health conditions</i>, <i>mentally healthy people</i>" ]
      NON_INCLUSIVE None None;
    entry "behaviorallyNormal" [ "behaviorally normal"; "behaviourally normal" ]
      [ "<i>showing typical behavior</i> or describing the specific behavior" ]
      POTENTIALLY_NON_INCLUSIVE None None;
    entry "abnormalPerson" [ "abnormal person" ]
      [ "describing the person's specific trait, experience, or behavior" ]
      NON_INCLUSIVE None None;
    entry "abnormalPeople" [ "abnormal people" ]
      [ "describing people's specific trait, experience, or behavior" ]
      NON_INCLUSIVE None None;
    entry "mentallyAbnormal" [ "mentally abnormal" ]
      [ "<i>people with a mental health condition</i>, <i>people with mental health problems</i>" ]
      NON_INCLUSIVE None None;
    entry "behaviorallyAbnormal" [ "behaviorally abnormal"; "behaviourally abnormal" ]
      [ "<i>showing atypical behavior, showing dysfunctional behavior</i> or describing the specific behavior" ]
      POTENTIALLY_NON_INCLUSIVE None None;
    entry "abnormalBehavior" [ "abnormal behavior"; "abnormal behaviour" ]
      [ "<i>atypical behavior, unusual behavior</i> or describing the specific behavior" ]
      POTENTIALLY_NON_INCLUSIVE None None ].

(** The body of [otherAssessments.forEach]. *)
Definition annotate (assessment : Assessment) : Assessment :=
  mkAssessment (identifier assessment) (nonInclusivePhrases assessment)
    (inclusiveAlternatives assessment) (score assessment)
    (caseSensitive assessment) (rule assessment)
    (Some "other") (Some "https://yoa.st/inclusive-language-other").

(** The exported table. *)
Definition otherAssessments : list Assessment := List.map annotate entries.

Definition lookup (name : string) : option Assessment :=
  List.find (fun assessment => String.eqb (identifier assessment) name) otherAssessments.

(** Modelled from the spec: the class that runs an entry is missing.  The
    spec's engine tokenizes the text, respects [caseSensitive] (false when
    the field is absent), looks for the windows of every phrase, and sends
    them through the rule of the entry when it has one. *)
Definition matchesOfPhrase (assessment : Assessment) (words : list string) (phrase : string)
  : list (string * nat) :=
  let fold :=
    match caseSensitive assessment with
    | Some true => fun word => word
    | _ => Model.toLocaleLowerCase
    end in
  let find :=
    match rule assessment with
    | Some r => r
    | None => includesConsecutiveWords
    end in
  List.map (fun index => (phrase, index))
    (find (List.map fold words) (List.map fold (tokenize phrase))).

Definition matchesOf (assessment : Assessment) (text : string) : list (string * nat) :=
  List.flat_map (matchesOfPhrase assessment (tokenize text)) (nonInclusivePhrases assessment).

(** The matches of the entry called [name], if the table has it. *)
Definition evaluate (name : string) (text : string) : option (list (string * nat)) :=
  option_map (fun assessment => matchesOf assessment text) (lookup name).

End InclusiveLanguage.

(* ===================================================================== *)
(** ** Names for the steps of the research *)
(* ===================================================================== *)

Section Steps.

Context {H : Helpers}.

(** [escapeRegExp( paper.getKeyword() )]: what the request parser gets. *)
Definition escapedKeyword (paper : Paper) : string :=
  Lodash.escapeRegExp (getKeyword paper).

(** [exactMatchRequest.exactMatchRequested]. *)
Definition requestsExactMatch (paper : Paper) : bool :=
  exactMatchRequested (processExactMatchRequest (escapedKeyword paper)).

(** The value of [keyword] when the title is searched. *)
Definition searchedKeyword (paper : Paper) : string :=
  if requestsExactMatch paper
  then keyphrase (processExactMatchRequest (escapedKeyword paper))
  else escapedKeyword paper.

(** [keywordMatched]. *)
Definition keywordMatched (paper : Paper) : WordMatch.t :=
  wordMatch (getTitle paper) (searchedKeyword paper) (getLocale paper) None.

(** [separateWordsMatched.percentWordMatches]. *)
Definition keyphraseCoverage (paper : Paper) (researcher : Researcher) : Z :=
  percentWordMatches
    (findTopicFormsInString (getResearch researcher "morphology")
       (getTitle paper) false (getLocale paper) None).

(** The words of [str] as [stripFunctionWordsFromStart] gets them. *)
Definition titleWordsOf (str : string) : list string :=
  getWords (toLocaleLowerCase (toLocaleLowerCase str)) WORD_BOUNDARY_WITH_HYPHEN.

(** The form of a title word that is looked up in the function words. *)
Definition lookedUp (word : string) : string := toLocaleLowerCase (trim word).

(** The words in front of [position] that are no function words. *)
Definition wordsLeftBefore (st : ModuleState) (title : string) (position : Z)
  : list string :=
  List.filter
    (fun word => negb (Lodash.includes (functionWords st) (lookedUp word)))
    (titleWordsOf (JS.substr0 title position)).

End Steps.

(** The state of the module after the research ran for [researcher]. *)
Definition stateAfter (researcher : Researcher) : ModuleState :=
  mkModuleState (getConfig researcher "functionWords").

(** Inputs on which the research is run below. *)
Module Inputs.

Definition quoted (s : string) : string :=
  (Model.straightQuote ++ s ++ Model.straightQuote)%string.

Definition kitchenGuide : Paper :=
  mkPaper "kitchen sink" "The Kitchen Sink Guide" "en_US".

Definition kitchenReviews : Paper :=
  mkPaper "kitchen sink" "Best Kitchen Sink Reviews" "en_US".

Definition sinksForKitchens : Paper :=
  mkPaper "kitchen sink" "Sinks for Kitchens" "en_US".

Definition bathroomTiles : Paper :=
  mkPaper "kitchen sink" "Bathroom tiles" "en_US".

Definition bathroomTilesQuoted : Paper :=
  mkPaper (quoted "kitchen sink") "Bathroom tiles" "en_US".



Definition kitchenForms : list (list string) :=
  [ [ "kitchen"; "kitchens" ]; [ "sink"; "sinks" ] ].

Definition english : Researcher := Model.researcher [ "the"; "a"; "to" ] kitchenForms.

Definition noFunctionWords : Researcher := Model.researcher [] kitchenForms.



End Inputs.

(* ===================================================================== *)
(** ** The selectors of [redux/selectors/isWooSEO.js] *)
(* ===================================================================== *)

(** The values that the script data of the page can hold.  Numbers are the
    integers and [NaN]; arrays and functions are left out. *)
Module Window.

#[local] Unset Elimination Schemes.

Inductive value : Type :=
| Undefined
| Null
| Bool (b : bool)
| Number (n : Z)
| NaN
| Str (s : string)
| Object (fields : list (string * value)).

(** [v == null]. *)
Definition isNullish (v : value) : bool :=
  match v with
  | Undefined | Null => true
  | _ => false
  end.

(** [Boolean( v )]. *)
Definition toBoolean (v : value) : bool :=
  match v with
  | Undefined | Null | NaN => false
  | Bool b => b
  | Number n => negb (n =? 0)
  | Str s => negb (String.eqb s "")
  | Object _ => true
  end.

Fixpoint lookupField (key : string) (fields : list (string * value)) : option value :=
  match fields with
  | [] => None
  | (name, v) :: rest => if String.eqb name key then Some v else lookupField key rest
  end.

(** [key in Object( object )], for keys that no prototype defines and that
    are no index into a string. *)
Definition hasProperty (object : value) (key : string) : bool :=
  match object with
  | Object fields =>
      match lookupField key fields with
      | Some _ => true
      | None => false
      end
  | Str _ => String.eqb key "length"
  | _ => false
  end.

(** [object[ key ]] for an [object] that is not nullish, with the same
    proviso on the keys. *)
Definition getProperty (object : value) (key : string) : value :=
  match object with
  | Object fields =>
      match lookupField key fields with
      | Some v => v
      | None => Undefined
      end
  | Str s => if String.eqb key "length" then Number (Z.of_nat (String.length s)) else Undefined
  | _ => Undefined
  end.

End Window.

(** [get] of lodash, for paths that are strings without brackets. *)
Module LodashGet.

Import Window.

Fixpoint hasDot (s : string) : bool :=
  match s with
  | EmptyString => false
  | String c s' => Ascii.eqb c "." || hasDot s'
  end.

Fixpoint splitDots (current : string) (s : string) : list string :=
  match s with
  | EmptyString => [current]
  | String c s' =>
      if Ascii.eqb c "."
      then current :: splitDots EmptyString s'
      else splitDots (current ++ String c EmptyString)%string s'
  end.

(** [stringToPath]: without brackets the property names are the parts
    between the dots. *)
Definition stringToPath (path : string) : list string := splitDots EmptyString path.

(** [isKey( path, object )]: a string without dots is one property name,
    and so is any string that is a property of [object] as it stands. *)
Definition isKey (path : string) (object : value) : bool :=
  negb (hasDot path) || (negb (isNullish object) && hasProperty object path).

Definition castPath (path : string) (object : value) : list string :=
  if isKey path object then [path] else stringToPath path.

(** The loop of [baseGet], which stops at a nullish value. *)
Fixpoint follow (object : value) (path : list string) : value :=
  match path with
  | [] => object
  | key :: rest =>
      if isNullish object then Undefined else follow (getProperty object key) rest
  end.

Definition baseGet (object : value) (path : list string) : value :=
  match path with
  | [] => Undefined
  | _ :: _ => follow object path
  end.

(** [result === undefined ? defaultValue : result]. *)
Definition orDefault (result defaultValue : value) : value :=
  match result with
  | Undefined => defaultValue
  | _ => result
  end.

(** [get( object, path, defaultValue )]: the default stands in for
    [undefined] only. *)
Definition get (object : value) (path : string) (defaultValue : value) : value :=
  let result :=
    if isNullish object then Undefined else baseGet object (castPath path object) in
  orDefault result defaultValue.

End LodashGet.

(** The selectors read the global [window], which is an argument here. *)
Module WooSelectors.

Import Window.

Definition getIsWooSeoUpsell (window : value) : value :=
  LodashGet.get window "wpseoScriptData.woocommerceUpsell" (Bool false).

Definition getIsWooSeoActive (window : value) : bool :=
  toBoolean (LodashGet.get window "wpseoScriptData.isWooCommerceSeoActive" (Bool false)).

Definition getIsWooCommerceActive (window : value) : bool :=
  toBoolean (LodashGet.get window "wpseoScriptData.isWooCommerceActive" (Bool false)).

(** A page whose script data holds [fields]. *)
Definition page (fields : list (string * value)) : value :=
  Object [ ("wpseoScriptData", Object fields) ].

End WooSelectors.

(* ===================================================================== *)
(** ** The shape of the result *)
(* ===================================================================== *)

Section ResearchFacts.

Context {H : Helpers}.

(** The research in one equation: either the exact-match branch or the
    coverage branch returns; the branch in between is never entered. *)
Lemma findKeyphraseInSEOTitle_eq (paper : Paper) (researcher : Researcher) (st : ModuleState) :
  findKeyphraseInSEOTitle paper researcher st =
    (if 0 <? WordMatch.count (keywordMatched paper)
     then mkMatchResult true true
            (adjustPosition (stateAfter researcher) (getTitle paper)
               (WordMatch.position (keywordMatched paper)))
            (requestsExactMatch paper)
     else mkMatchResult false (keyphraseCoverage paper researcher =? 100) (-1)
            (requestsExactMatch paper),
     stateAfter researcher).
Proof.
  unfold findKeyphraseInSEOTitle, keywordMatched, searchedKeyword, keyphraseCoverage,
    requestsExactMatch, escapedKeyword, stateAfter.
  destruct (exactMatchRequested (processExactMatchRequest _)); cbn;
    destruct (0 <? _); cbn; try reflexivity;
    destruct (_ =? 100); reflexivity.
Qed.

Lemma adjustPosition_eq (st : ModuleState) (title : string) (position : Z) :
  adjustPosition st title position =
    if position =? 0 then position
    else match functionWords st with
         | [] => position
         | _ :: _ =>
             match wordsLeftBefore st title position with
             | [] => 0
             | _ :: _ => position
             end
         end.
Proof.
  unfold adjustPosition, stripFunctionWordsFromStart, wordsLeftBefore, titleWordsOf,
    lookedUp, Lodash.filter, Lodash.isEmpty.
  destruct (position =? 0); [reflexivity|].
  destruct (functionWords st) as [|w ws] eqn:E; [reflexivity|].
  cbn [List.length]. rewrite Nat2Z.inj_succ.
  destruct (Z.succ _ =? 0) eqn:E0; [apply Z.eqb_eq in E0; lia|].
  destruct (List.filter _ _); reflexivity.
Qed.

(** C10: [adjustPosition] returns 0 or the position it was given, nothing
    else; for a position that is not negative the result is never greater
    than the position. *)
Theorem adjustPosition_zero_or_same (st : ModuleState) (title : string) (position : Z) :
  (adjustPosition st title position = 0 \/ adjustPosition st title position = position)
  /\ (0 <= position -> adjustPosition st title position <= position).
Proof.
  rewrite adjustPosition_eq.
  destruct (position =? 0) eqn:E0.
  - split; [right; reflexivity | lia].
  - destruct (functionWords st); [split; [right; reflexivity | lia]|].
    destruct (wordsLeftBefore st title position); split; auto; lia.
Qed.

(** C3: [adjustPosition] gives the position back when it is 0 or when there
    are no function words; otherwise it takes the part of the title in
    front of the position, splits it into words with the boundary that
    includes hyphens, drops the words that are function words, and
    returns 0 when no word is left and the position when one is. *)
Theorem adjustPosition_behaviour (st : ModuleState) (title : string) (position : Z) :
  (position = 0 \/ functionWords st = [] -> adjustPosition st title position = position)
  /\ (position <> 0 -> functionWords st <> [] ->
      (List.filter
         (fun word =>
            negb (Lodash.includes (functionWords st) (toLocaleLowerCase (trim word))))
         (getWords (toLocaleLowerCase (toLocaleLowerCase (JS.substr0 title position)))
            WORD_BOUNDARY_WITH_HYPHEN) = []
       -> adjustPosition st title position = 0)
      /\ (List.filter
            (fun word =>
               negb (Lodash.includes (functionWords st) (toLocaleLowerCase (trim word))))
            (getWords (toLocaleLowerCase (toLocaleLowerCase (JS.substr0 title position)))
               WORD_BOUNDARY_WITH_HYPHEN) <> []
          -> adjustPosition st title position = position)).
Proof.
  rewrite adjustPosition_eq.
  change (List.filter _ (getWords _ _)) with (wordsLeftBefore st title position).
  split.
  - intros [-> | ->]; [reflexivity|]. destruct (position =? 0); reflexivity.
  - intros Hp Hf. apply Z.eqb_neq in Hp. rewrite Hp.
    destruct (functionWords st); [congruence|].
    destruct (wordsLeftBefore st title position); split; congruence.
Qed.

(** C1: a position that is not negative comes with [exactMatchFound], and
    the position is -1 whenever the title holds no exact occurrence of the
    keyphrase, whatever [allWordsFound] is. *)
Theorem position_invariant (paper : Paper) (researcher : Researcher) (st : ModuleState) :
  (0 <= position (fst (findKeyphraseInSEOTitle paper researcher st))
   -> exactMatchFound (fst (findKeyphraseInSEOTitle paper researcher st)) = true)
  /\ (WordMatch.count (keywordMatched paper) <= 0
      -> position (fst (findKeyphraseInSEOTitle paper researcher st)) = -1).
Proof.
  rewrite findKeyphraseInSEOTitle_eq.
  destruct (0 <? WordMatch.count (keywordMatched paper)) eqn:E; cbn.
  - apply Z.ltb_lt in E. split; [reflexivity | lia].
  - split; [lia | reflexivity].
Qed.

(** C4: when the title holds no exact occurrence of the keyphrase,
    [allWordsFound] is true exactly when the coverage percentage is 100,
    and that percentage is computed by [findTopicFormsInString] with
    [useSynonyms] false, from the forms of the keyphrase alone. *)
Theorem allWordsFound_iff_full_coverage
    (paper : Paper) (researcher : Researcher) (st : ModuleState) :
  WordMatch.count (keywordMatched paper) <= 0 ->
  (allWordsFound (fst (findKeyphraseInSEOTitle paper researcher st)) = true
   <-> percentWordMatches
         (findTopicFormsInString (getResearch researcher "morphology")
            (getTitle paper) false (getLocale paper) None) = 100).
Proof.
  intros Hc. rewrite findKeyphraseInSEOTitle_eq.
  destruct (0 <? WordMatch.count (keywordMatched paper)) eqn:E.
  - apply Z.ltb_lt in E. lia.
  - cbn. unfold keyphraseCoverage. apply Z.eqb_eq.
Qed.

(** C7: the result of the research does not depend on the module state it
    starts from, so a second run on the same inputs, which starts from the
    state the first run left, returns the same result, and so does a run
    that follows a run on other inputs. *)
Theorem research_deterministic (paper : Paper) (researcher : Researcher) :
  (forall st st' : ModuleState,
      fst (findKeyphraseInSEOTitle paper researcher st)
      = fst (findKeyphraseInSEOTitle paper researcher st'))
  /\ (forall st : ModuleState,
         findKeyphraseInSEOTitle paper researcher
           (snd (findKeyphraseInSEOTitle paper researcher st))
         = findKeyphraseInSEOTitle paper researcher st)
  /\ (forall (paper' : Paper) (researcher' : Researcher) (st : ModuleState),
         fst (findKeyphraseInSEOTitle paper researcher
                (snd (findKeyphraseInSEOTitle paper' researcher' st)))
         = fst (findKeyphraseInSEOTitle paper researcher st)).
Proof.
  repeat split; intros; rewrite !findKeyphraseInSEOTitle_eq; reflexivity.
Qed.

(** An exact match is reported by the first search of the title only. *)
Lemma exactMatchFound_first_search
    (paper : Paper) (researcher : Researcher) (st : ModuleState) :
  exactMatchFound (fst (findKeyphraseInSEOTitle paper researcher st))
  = (0 <? WordMatch.count (keywordMatched paper)).
Proof.
  rewrite findKeyphraseInSEOTitle_eq.
  destruct (0 <? WordMatch.count (keywordMatched paper)); reflexivity.
Qed.

Lemma exactMatchKeyphrase_eq
    (paper : Paper) (researcher : Researcher) (st : ModuleState) :
  exactMatchKeyphrase (fst (findKeyphraseInSEOTitle paper researcher st))
  = requestsExactMatch paper.
Proof.
  rewrite findKeyphraseInSEOTitle_eq.
  destruct (0 <? WordMatch.count (keywordMatched paper)); reflexivity.
Qed.

End ResearchFacts.

(* ===================================================================== *)
(** ** Escaping and quotation marks *)
(* ===================================================================== *)

Section Escaping.

Import Lodash.

Lemma escapeRegExp_plain (s : string) : plain s = true -> escapeRegExp s = s.
Proof.
  induction s as [|c s IH]; cbn [escapeRegExp plain]; [reflexivity|].
  intros Hp. apply andb_true_iff in Hp as [Hc Hs].
  apply negb_true_iff in Hc. rewrite Hc, IH; auto.
Qed.

Lemma reRegExpChar_backslash : reRegExpChar "\" = true.
Proof. reflexivity. Qed.

Lemma plain_escapeRegExp (s : string) : plain (escapeRegExp s) = true -> plain s = true.
Proof.
  induction s as [|c s IH]; cbn [escapeRegExp plain]; [reflexivity|].
  destruct (reRegExpChar c) eqn:Hc; cbn [plain].
  - rewrite reRegExpChar_backslash. discriminate.
  - rewrite Hc. cbn [negb andb]. exact IH.
Qed.

Lemma eqb_escapeRegExp (c k : string) :
  plain c = true -> String.eqb (escapeRegExp k) c = String.eqb k c.
Proof.
  intros Hc.
  destruct (String.eqb_spec (escapeRegExp k) c) as [E|E];
    destruct (String.eqb_spec k c) as [E'|E']; try reflexivity; exfalso.
  - apply E'. rewrite <- E. symmetry. apply escapeRegExp_plain.
    apply plain_escapeRegExp. rewrite E. exact Hc.
  - apply E. subst k. apply escapeRegExp_plain. exact Hc.
Qed.

Lemma eqb_special_head (x : ascii) (t c : string) :
  plain c = true -> reRegExpChar x = true -> String.eqb (String x t) c = false.
Proof.
  intros Hc Hx. destruct (String.eqb_spec (String x t) c) as [E|E]; [|reflexivity].
  subst c. cbn [plain] in Hc. rewrite Hx in Hc. discriminate.
Qed.

Lemma stripPrefix_escapeRegExp (o k : string) :
  plain o = true ->
  Model.stripPrefix o (escapeRegExp k) = option_map escapeRegExp (Model.stripPrefix o k).
Proof.
  revert k. induction o as [|a o IH]; intros k Ho.
  - destruct k; reflexivity.
  - cbn [plain] in Ho. apply andb_true_iff in Ho as [Ha Ho]. apply negb_true_iff in Ha.
    destruct k as [|c k]; [reflexivity|].
    cbn [escapeRegExp]. destruct (reRegExpChar c) eqn:Hc; cbn [Model.stripPrefix].
    + destruct (Ascii.eqb_spec a "\") as [E|E].
      * subst a. rewrite reRegExpChar_backslash in Ha. discriminate.
      * destruct (Ascii.eqb_spec a c) as [E'|E']; [|reflexivity].
        subst c. congruence.
    + destruct (Ascii.eqb a c); [apply IH; exact Ho | reflexivity].
Qed.

Lemma stripSuffix_escapeRegExp (c k : string) :
  plain c = true ->
  Model.stripSuffix c (escapeRegExp k) = option_map escapeRegExp (Model.stripSuffix c k).
Proof.
  intros Hc. induction k as [|a k IH].
  - cbn. destruct c; reflexivity.
  - cbn [Model.stripSuffix].
    destruct (reRegExpChar a) eqn:Ha.
    + rewrite (eqb_special_head a k c Hc Ha).
      cbn [escapeRegExp]. rewrite Ha. cbn [Model.stripSuffix].
      rewrite (eqb_special_head "\" _ c Hc reRegExpChar_backslash).
      rewrite (eqb_special_head a _ c Hc Ha).
      rewrite IH. destruct (Model.stripSuffix c k); cbn [option_map escapeRegExp];
        [rewrite Ha|]; reflexivity.
    + pose proof (eqb_escapeRegExp c (String a k) Hc) as E.
      cbn [escapeRegExp] in *. rewrite Ha in *. cbn [Model.stripSuffix].
      rewrite E. destruct (String.eqb (String a k) c); [reflexivity|].
      rewrite IH. destruct (Model.stripSuffix c k); cbn [option_map escapeRegExp];
        [rewrite Ha|]; reflexivity.
Qed.

Lemma unwrap_escapeRegExp (quotes : string * string) (k : string) :
  plain (fst quotes) = true -> plain (snd quotes) = true ->
  Model.unwrap quotes (escapeRegExp k) = option_map escapeRegExp (Model.unwrap quotes k).
Proof.
  intros Ho Hc. unfold Model.unwrap.
  rewrite stripPrefix_escapeRegExp by exact Ho.
  destruct (Model.stripPrefix (fst quotes) k); cbn; [|reflexivity].
  apply stripSuffix_escapeRegExp. exact Hc.
Qed.

Lemma firstUnwrap_escapeRegExp (pairs : list (string * string)) (k : string) :
  forallb (fun quotes => plain (fst quotes) && plain (snd quotes)) pairs = true ->
  Model.firstUnwrap pairs (escapeRegExp k)
  = option_map escapeRegExp (Model.firstUnwrap pairs k).
Proof.
  induction pairs as [|quotes pairs IH]; cbn; [reflexivity|].
  intros Hp. apply andb_true_iff in Hp as [Hq Hp].
  apply andb_true_iff in Hq as [Ho Hc].
  rewrite unwrap_escapeRegExp by assumption.
  destruct (Model.unwrap quotes k); cbn; [reflexivity | apply IH; exact Hp].
Qed.

(** Escaping the keyphrase does not change whether it is read as a request
    for an exact match: the quotation marks are not escaped, and a
    backslash is put in front of a character, never behind it. *)
Lemma exactMatchRequested_escapeRegExp (k : string) :
  exactMatchRequested (Model.processExactMatchRequest (escapeRegExp k))
  = exactMatchRequested (Model.processExactMatchRequest k).
Proof.
  unfold Model.processExactMatchRequest.
  rewrite firstUnwrap_escapeRegExp by reflexivity.
  destruct (Model.firstUnwrap Model.quotePairs k); reflexivity.
Qed.

End Escaping.

(* ===================================================================== *)
(** ** The function-word test *)
(* ===================================================================== *)

Section FunctionWords.

Context {H : Helpers}.

Lemma includes_In (collection : list string) (value : string) :
  Lodash.includes collection value = true <-> In value collection.
Proof.
  unfold Lodash.includes. rewrite existsb_exists. split.
  - intros [x [Hin Heq]]. apply String.eqb_eq in Heq. subst x. exact Hin.
  - intros Hin. exists value. split; [exact Hin | apply String.eqb_refl].
Qed.

Lemma isEmpty_filter {A : Type} (keep : A -> bool) (l : list A) :
  Lodash.isEmpty (Lodash.filter l keep) = true <-> forall x, In x l -> keep x = false.
Proof.
  unfold Lodash.filter. induction l as [|a l IH]; cbn.
  - split; [intros _ x [] | reflexivity].
  - destruct (keep a) eqn:Ka; cbn.
    + split; [discriminate|]. intros Hall.
      rewrite (Hall a (or_introl eq_refl)) in Ka. discriminate.
    + rewrite IH. split.
      * intros Hall x [<- | Hin]; [exact Ka | apply Hall; exact Hin].
      * intros Hall x Hin. apply Hall. right. exact Hin.
Qed.

(** C5, as the code has it: the words of the string are case-folded (the
    string before it is split, each trimmed word once more) and looked up
    as they are in the function-word list, whose entries are not
    case-folded; an entry that lowercasing never returns, such as one with
    an uppercase letter in it, matches no word at all. *)
Theorem function_word_test_folds_words_only (st : ModuleState) (str : string) :
  (stripFunctionWordsFromStart st str = true
   <-> forall word,
       In word (getWords (toLocaleLowerCase (toLocaleLowerCase str))
                  WORD_BOUNDARY_WITH_HYPHEN)
       -> In (toLocaleLowerCase (trim word)) (functionWords st))
  /\ (forall entry : string,
         (forall s : string, toLocaleLowerCase s <> entry)
         -> stripFunctionWordsFromStart (mkModuleState (entry :: functionWords st)) str
            = stripFunctionWordsFromStart st str).
Proof.
  unfold stripFunctionWordsFromStart. split.
  - rewrite isEmpty_filter. split; intros Hall word Hin.
    + apply includes_In. apply negb_false_iff. apply Hall. exact Hin.
    + apply negb_false_iff. apply includes_In. apply Hall. exact Hin.
  - intros entry Hentry. unfold Lodash.filter. f_equal.
    apply List.filter_ext. intros word. f_equal.
    cbn. destruct (String.eqb_spec (toLocaleLowerCase (trim word)) entry) as [E|E].
    + exfalso. exact (Hentry _ E).
    + reflexivity.
Qed.

End FunctionWords.

(* ===================================================================== *)
(** ** The research as a whole *)
(* ===================================================================== *)

(** With helpers that return on every call the research over helpers that
    may throw returns what the research above returns. *)
Lemma returning_adjustPosition (H : Helpers) (st : ModuleState) (title : string) (at_ : Z) :
  Throwing.adjustPosition (T := returning H) st title at_
  = Throwing.Returned (adjustPosition st title at_).
Proof.
  unfold Throwing.adjustPosition, adjustPosition.
  destruct (at_ =? 0); [reflexivity|].
  destruct (Z.of_nat (List.length (functionWords st)) =? 0); [reflexivity|].
  cbn. unfold stripFunctionWordsFromStart.
  destruct (Lodash.isEmpty _); reflexivity.
Qed.

Lemma returning_findKeyphraseInSEOTitle
    (H : Helpers) (paper : Paper) (researcher : Researcher) (st : ModuleState) :
  Throwing.findKeyphraseInSEOTitle (T := returning H) paper researcher st
  = (Throwing.Returned (fst (findKeyphraseInSEOTitle paper researcher st)),
     snd (findKeyphraseInSEOTitle paper researcher st)).
Proof.
  unfold Throwing.findKeyphraseInSEOTitle, findKeyphraseInSEOTitle.
  cbn [Throwing.processExactMatchRequest Throwing.wordMatch
         Throwing.findTopicFormsInString returning Throwing.bind].
  destruct (exactMatchRequested (processExactMatchRequest _));
    cbn [Throwing.bind]; destruct (0 <? WordMatch.count _); cbn [negb JS.truthy_object];
    try (rewrite returning_adjustPosition; reflexivity);
    cbn [Throwing.bind]; destruct (percentWordMatches _ =? 100); reflexivity.
Qed.

(** A title without the keyphrase and without its forms: the same result
    with the helpers that return and with the ones that may throw. *)
Example no_match_scenario :
  Model.run Inputs.bathroomTiles Inputs.english = mkMatchResult false false (-1) false
  /\ fst (Throwing.findKeyphraseInSEOTitle (T := Model.throwing)
            Inputs.bathroomTiles Inputs.english initialState)
     = Throwing.Returned (mkMatchResult false false (-1) false).
Proof. split; reflexivity. Qed.


(** C9: [exactMatchKeyphrase] is the flag that the request parser returns
    for the escaped keyphrase, whatever the searches of the title find; with
    the parser of quotation marks this is its flag for the keyphrase as the
    paper has it; and a quoted keyphrase that the title does not hold gives
    the flag next to false, false and -1. *)
Theorem exactMatchKeyphrase_reflects_request :
  (forall (H : Helpers) (paper : Paper) (researcher : Researcher) (st : ModuleState),
      exactMatchKeyphrase (fst (findKeyphraseInSEOTitle paper researcher st))
      = exactMatchRequested
          (processExactMatchRequest (Lodash.escapeRegExp (getKeyword paper))))
  /\ (forall wordMatch findTopicFormsInString getWords toLocaleLowerCase trim
             (paper : Paper) (researcher : Researcher) (st : ModuleState),
         exactMatchKeyphrase
           (fst (findKeyphraseInSEOTitle
                   (H := Build_Helpers wordMatch findTopicFormsInString
                           Model.processExactMatchRequest getWords toLocaleLowerCase trim)
                   paper researcher st))
         = exactMatchRequested (Model.processExactMatchRequest (getKeyword paper)))
  /\ Model.run Inputs.bathroomTilesQuoted Inputs.english
     = mkMatchResult false false (-1) true.
Proof.
  split; [|split].
  - intros. apply exactMatchKeyphrase_eq.
  - intros. rewrite exactMatchKeyphrase_eq.
    unfold requestsExactMatch, escapedKeyword. cbn [processExactMatchRequest].
    apply exactMatchRequested_escapeRegExp.
  - reflexivity.
Qed.

(** The spec's scenario of an exact match behind a word that is no function
    word. *)
Example exact_match_scenario :
  Model.run Inputs.kitchenReviews Inputs.english = mkMatchResult true true 5 false.
Proof. reflexivity. Qed.

(** Without [useSynonyms] the reference coverage does not look at the forms
    of the synonyms. *)
Lemma coverage_ignores_synonyms
    (forms : list (list string)) (synonyms synonyms' : list (list (list string)))
    (text locale : string) :
  Model.findTopicFormsInString (mkTopicForms forms synonyms) text false locale None
  = Model.findTopicFormsInString (mkTopicForms forms synonyms') text false locale None.
Proof. reflexivity. Qed.


(* ===================================================================== *)
(** ** The rules for "normal person" and "mentally normal" *)
(* ===================================================================== *)

(** No match of the rule of [normalPerson] has one of the three exceptions
    right in front of it. *)
Lemma rule_vetoes_exceptions (words phrase : list string) (index : nat) (exception : string) :
  In index (InclusiveLanguage.notAfterMentallyOrBehaviorally words phrase) ->
  In exception [ "mentally"; "behaviorally"; "behaviourally" ] ->
  InclusiveLanguage.precededBy words index exception = false.
Proof.
  unfold InclusiveLanguage.notAfterMentallyOrBehaviorally,
    InclusiveLanguage.isNotPrecededByException.
  intros Hin Hex. apply filter_In in Hin as [_ Hkeep].
  apply negb_true_iff in Hkeep.
  destruct (InclusiveLanguage.precededBy words index exception) eqn:E; [|reflexivity].
  assert (existsb (InclusiveLanguage.precededBy words index)
            [ "mentally"; "behaviorally"; "behaviourally" ] = true) as Hex'.
  { apply existsb_exists. exists exception. split; assumption. }
  rewrite Hex' in Hkeep. discriminate.
Qed.

(** C6: on the words of "a mentally normal person" the rule [normalPerson]
    has no match, as it has none after "behaviorally" or "behaviourally"
    while it has one in "a normal person", and the rule [mentallyNormal]
    has exactly one match. *)
Theorem normalPerson_exception_scenario :
  InclusiveLanguage.tokenize "a mentally normal person"
  = [ "a"; "mentally"; "normal"; "person" ]
  /\ InclusiveLanguage.evaluate "normalPerson" "a mentally normal person" = Some []
  /\ InclusiveLanguage.evaluate "mentallyNormal" "a mentally normal person"
     = Some [ ("mentally normal", 1%nat) ]
  /\ InclusiveLanguage.evaluate "normalPerson" "a behaviorally normal person" = Some []
  /\ InclusiveLanguage.evaluate "normalPerson" "a behaviourally normal person" = Some []
  /\ InclusiveLanguage.evaluate "normalPerson" "a normal person"
     = Some [ ("normal person", 1%nat) ].
Proof.
  repeat split.
Qed.

(* ===================================================================== *)
(** ** The theorems at work on inputs *)
(* ===================================================================== *)

Lemma adjustPosition_zero_or_same_witness :
  0 <= 4
  /\ adjustPosition (H := Model.helpers) (stateAfter Inputs.english)
       "The Kitchen Sink Guide" 4 <= 4.
Proof.
  split; [lia|].
  apply (proj2 (adjustPosition_zero_or_same (H := Model.helpers)
                  (stateAfter Inputs.english) "The Kitchen Sink Guide" 4)).
  lia.
Defined.

Lemma adjustPosition_behaviour_witness :
  (adjustPosition (H := Model.helpers) (stateAfter Inputs.english)
     "Kitchen Sink Guide" 0 = 0)
  /\ (adjustPosition (H := Model.helpers) (stateAfter Inputs.noFunctionWords)
        "The Kitchen Sink Guide" 4 = 4)
  /\ (adjustPosition (H := Model.helpers) (stateAfter Inputs.english)
        "The Kitchen Sink Guide" 4 = 0)
  /\ (adjustPosition (H := Model.helpers) (stateAfter Inputs.english)
        "Best Kitchen Sink Reviews" 5 = 5).
Proof.
  split; [|split; [|split]].
  - apply (proj1 (adjustPosition_behaviour (H := Model.helpers)
                    (stateAfter Inputs.english) "Kitchen Sink Guide" 0)).
    left. reflexivity.
  - apply (proj1 (adjustPosition_behaviour (H := Model.helpers)
                    (stateAfter Inputs.noFunctionWords) "The Kitchen Sink Guide" 4)).
    right. reflexivity.
  - apply (proj2 (adjustPosition_behaviour (H := Model.helpers)
                    (stateAfter Inputs.english) "The Kitchen Sink Guide" 4)).
    + discriminate.
    + discriminate.
    + reflexivity.
  - apply (proj2 (adjustPosition_behaviour (H := Model.helpers)
                    (stateAfter Inputs.english) "Best Kitchen Sink Reviews" 5)).
    + discriminate.
    + discriminate.
    + discriminate.
Defined.

Lemma position_invariant_witness :
  (0 <= position (Model.run Inputs.kitchenGuide Inputs.english)
   /\ exactMatchFound (Model.run Inputs.kitchenGuide Inputs.english) = true)
  /\ (WordMatch.count (keywordMatched (H := Model.helpers) Inputs.sinksForKitchens) <= 0
      /\ allWordsFound (Model.run Inputs.sinksForKitchens Inputs.english) = true
      /\ position (Model.run Inputs.sinksForKitchens Inputs.english) = -1).
Proof.
  split; [split | split; [|split]].
  - vm_compute. discriminate.
  - apply (proj1 (position_invariant (H := Model.helpers)
                    Inputs.kitchenGuide Inputs.english initialState)).
    vm_compute. discriminate.
  - vm_compute. discriminate.
  - reflexivity.
  - apply (proj2 (position_invariant (H := Model.helpers)
                    Inputs.sinksForKitchens Inputs.english initialState)).
    vm_compute. discriminate.
Defined.

Lemma allWordsFound_iff_full_coverage_witness :
  WordMatch.count (keywordMatched (H := Model.helpers) Inputs.sinksForKitchens) <= 0
  /\ Model.run Inputs.sinksForKitchens Inputs.english = mkMatchResult false true (-1) false
  /\ (allWordsFound (Model.run Inputs.sinksForKitchens Inputs.english) = true
      <-> percentWordMatches
            (Model.findTopicFormsInString (getResearch Inputs.english "morphology")
               (getTitle Inputs.sinksForKitchens) false
               (getLocale Inputs.sinksForKitchens) None) = 100).
Proof.
  split; [vm_compute; discriminate|]. split; [reflexivity|].
  apply (allWordsFound_iff_full_coverage (H := Model.helpers)
           Inputs.sinksForKitchens Inputs.english initialState).
  vm_compute. discriminate.
Defined.

Lemma toLocaleLowerCase_never_The (s : string) : Model.toLocaleLowerCase s <> "The".
Proof.
  destruct s as [|c s]; [discriminate|].
  cbn [Model.toLocaleLowerCase]. intros E. injection E as Ec _.
  destruct c as [[] [] [] [] [] [] [] []]; vm_compute in Ec; discriminate.
Qed.

Lemma function_word_test_folds_words_only_witness :
  (forall s : string, Model.toLocaleLowerCase s <> "The")
  /\ stripFunctionWordsFromStart (H := Model.helpers)
       (mkModuleState [ "The"; "a" ]) "The a"
     = stripFunctionWordsFromStart (H := Model.helpers) (mkModuleState [ "a" ]) "The a".
Proof.
  split; [exact toLocaleLowerCase_never_The|].
  apply (proj2 (function_word_test_folds_words_only (H := Model.helpers)
                  (mkModuleState [ "a" ]) "The a") "The").
  exact toLocaleLowerCase_never_The.
Defined.

(** C5, as the spec has it, fails: with the list entry "The" the word "the"
    is no function word, with the entry case-folded it is one, and the
    keyphrase after "the" stays at offset 4. *)
Lemma function_word_list_is_not_folded :
  stripFunctionWordsFromStart (H := Model.helpers) (mkModuleState [ "The" ]) "the "
  <> stripFunctionWordsFromStart (H := Model.helpers)
       (mkModuleState (List.map Model.toLocaleLowerCase [ "The" ])) "the "
  /\ adjustPosition (H := Model.helpers) (mkModuleState [ "The" ]) "the kitchen sink" 4 = 4
  /\ adjustPosition (H := Model.helpers)
       (mkModuleState (List.map Model.toLocaleLowerCase [ "The" ])) "the kitchen sink" 4 = 0.
Proof.
  split; [vm_compute; discriminate | split; reflexivity].
Qed.

(* ===================================================================== *)
(** ** More on the position and the function words *)
(* ===================================================================== *)

Section PositionFacts.

Context {H : Helpers}.

Lemma substr0_not_positive (title : string) (position : Z) :
  position <= 0 -> JS.substr0 title position = EmptyString.
Proof.
  intros Hp. unfold JS.substr0.
  replace (Z.to_nat position) with 0%nat by lia.
  destruct title; reflexivity.
Qed.

Lemma strip_true_iff (st : ModuleState) (str : string) :
  stripFunctionWordsFromStart st str = true
  <-> forall word, In word (titleWordsOf str) -> In (lookedUp word) (functionWords st).
Proof.
  unfold stripFunctionWordsFromStart, titleWordsOf, lookedUp.
  rewrite isEmpty_filter. split; intros Hall word Hin.
  - apply includes_In. apply negb_false_iff. apply Hall. exact Hin.
  - apply negb_false_iff. apply includes_In. apply Hall. exact Hin.
Qed.

(** The two ways out of [adjustPosition]. *)
Lemma adjustPosition_cases (st : ModuleState) (title : string) (position : Z) :
  (adjustPosition st title position = 0
   /\ (position = 0
       \/ (functionWords st <> []
           /\ stripFunctionWordsFromStart st (JS.substr0 title position) = true)))
  \/ (adjustPosition st title position = position
      /\ (position = 0 \/ functionWords st = []
          \/ stripFunctionWordsFromStart st (JS.substr0 title position) = false)).
Proof.
  unfold adjustPosition.
  destruct (Z.eqb_spec position 0) as [E|E]; [right; auto|].
  destruct (functionWords st) as [|w ws] eqn:Ew; [right; auto|].
  cbn [List.length]. rewrite Nat2Z.inj_succ.
  destruct (Z.eqb_spec (Z.succ (Z.of_nat (List.length ws))) 0) as [E0|E0]; [lia|].
  destruct (stripFunctionWordsFromStart _ _) eqn:Es.
  - left. split; [reflexivity|]. right. split; [discriminate | reflexivity].
  - right. auto.
Qed.

(** X1: adjusting an adjusted position changes nothing. *)
Theorem adjustPosition_idempotent (st : ModuleState) (title : string) (position : Z) :
  adjustPosition st title (adjustPosition st title position)
  = adjustPosition st title position.
Proof.
  destruct (adjustPosition_cases st title position) as [[E _] | [E _]].
  - rewrite E. reflexivity.
  - rewrite E. exact E.
Qed.

(** X2: with more function words more strings consist of function words
    only, and the adjusted position of a position that is not negative can
    only go down. *)
Theorem function_words_monotone (st st' : ModuleState) (title : string) (position : Z) :
  (forall word, In word (functionWords st) -> In word (functionWords st')) ->
  (forall str, stripFunctionWordsFromStart st str = true
               -> stripFunctionWordsFromStart st' str = true)
  /\ (0 <= position
      -> adjustPosition st' title position <= adjustPosition st title position).
Proof.
  intros Hsub.
  assert (forall str, stripFunctionWordsFromStart st str = true
                      -> stripFunctionWordsFromStart st' str = true) as Hstrip.
  { intros str Hs. apply strip_true_iff. intros word Hin.
    apply Hsub. revert word Hin. apply strip_true_iff. exact Hs. }
  split; [exact Hstrip|]. intros Hp.
  destruct (adjustPosition_cases st title position)
    as [[E [E0 | [Hne Hs]]] | [E _]];
    destruct (adjustPosition_cases st' title position)
      as [[E' C'] | [E' C']]; rewrite E, E'; try lia.
  destruct C' as [C' | [C' | C']]; [lia | exfalso | exfalso].
  - destruct (functionWords st) as [|w ws]; [congruence|].
    specialize (Hsub w (or_introl eq_refl)). rewrite C' in Hsub. exact Hsub.
  - rewrite (Hstrip _ Hs) in C'. discriminate.
Qed.

(** X3: a negative position, which is what a search without an offset
    reports, becomes 0 as soon as there are function words: nothing is in
    front of it. *)
Theorem adjustPosition_negative (st : ModuleState) (title : string) (position : Z) :
  position < 0 ->
  functionWords st <> [] ->
  toLocaleLowerCase EmptyString = EmptyString ->
  getWords EmptyString WORD_BOUNDARY_WITH_HYPHEN = [] ->
  adjustPosition st title position = 0.
Proof.
  intros Hp Hfw Hlow Hwords.
  destruct (adjustPosition_cases st title position)
    as [[E _] | [E [C | [C | C]]]]; [exact E | lia | congruence |].
  rewrite substr0_not_positive in C by lia.
  unfold stripFunctionWordsFromStart in C.
  rewrite !Hlow, Hwords in C. discriminate.
Qed.

(** X8: when lowercasing a lowercased string changes nothing, the test for
    function words gives the same on a string and on the string in lower
    case. *)
Theorem stripFunctionWordsFromStart_case (st : ModuleState) (str : string) :
  (forall s, toLocaleLowerCase (toLocaleLowerCase s) = toLocaleLowerCase s) ->
  stripFunctionWordsFromStart st (toLocaleLowerCase str)
  = stripFunctionWordsFromStart st str.
Proof.
  intros Hidem. unfold stripFunctionWordsFromStart. rewrite !Hidem. reflexivity.
Qed.

(** X4: when the researcher has no function words, an exact match is
    reported at the offset that the search of the title gives. *)
Theorem research_without_function_words
    (paper : Paper) (researcher : Researcher) (st : ModuleState) :
  getConfig researcher "functionWords" = [] ->
  0 < WordMatch.count (keywordMatched paper) ->
  fst (findKeyphraseInSEOTitle paper researcher st)
  = mkMatchResult true true (WordMatch.position (keywordMatched paper))
      (requestsExactMatch paper).
Proof.
  intros Hfw Hc. rewrite findKeyphraseInSEOTitle_eq.
  apply Z.ltb_lt in Hc. rewrite Hc. cbn [fst]. f_equal.
  destruct (adjustPosition_cases (stateAfter researcher) (getTitle paper)
              (WordMatch.position (keywordMatched paper)))
    as [[E [C | [C _]]] | [E _]].
  - rewrite E. symmetry. exact C.
  - exfalso. apply C. exact Hfw.
  - exact E.
Qed.

(** X5: the position of an exact match lies between 0 and the offset that
    the search of the title gives, when that offset is not negative. *)
Theorem research_position_bounds
    (paper : Paper) (researcher : Researcher) (st : ModuleState) :
  0 < WordMatch.count (keywordMatched paper) ->
  0 <= WordMatch.position (keywordMatched paper) ->
  0 <= position (fst (findKeyphraseInSEOTitle paper researcher st))
       <= WordMatch.position (keywordMatched paper).
Proof.
  intros Hc Hp. rewrite findKeyphraseInSEOTitle_eq.
  apply Z.ltb_lt in Hc. rewrite Hc. cbn [fst position].
  destruct (adjustPosition_cases (stateAfter researcher) (getTitle paper)
              (WordMatch.position (keywordMatched paper)))
    as [[E _] | [E _]]; rewrite E; lia.
Qed.

(** X6: when the title holds the keyphrase, the morphology research is not
    looked at: researchers with the same function words give the same
    result. *)
Theorem exact_match_ignores_morphology
    (paper : Paper) (researcher researcher' : Researcher) (st : ModuleState) :
  0 < WordMatch.count (keywordMatched paper) ->
  getConfig researcher "functionWords" = getConfig researcher' "functionWords" ->
  fst (findKeyphraseInSEOTitle paper researcher st)
  = fst (findKeyphraseInSEOTitle paper researcher' st).
Proof.
  intros Hc Hfw. rewrite !findKeyphraseInSEOTitle_eq.
  apply Z.ltb_lt in Hc. rewrite Hc. cbn [fst].
  unfold stateAfter. rewrite Hfw. reflexivity.
Qed.

(** X7: when the title does not hold the keyphrase, the function words are
    not looked at: researchers with the same morphology research give the
    same result. *)
Theorem no_match_ignores_function_words
    (paper : Paper) (researcher researcher' : Researcher) (st : ModuleState) :
  WordMatch.count (keywordMatched paper) <= 0 ->
  getResearch researcher "morphology" = getResearch researcher' "morphology" ->
  fst (findKeyphraseInSEOTitle paper researcher st)
  = fst (findKeyphraseInSEOTitle paper researcher' st).
Proof.
  intros Hc Hm. rewrite !findKeyphraseInSEOTitle_eq.
  destruct (Z.ltb_spec 0 (WordMatch.count (keywordMatched paper))) as [L|L]; [lia|].
  cbn [fst]. unfold keyphraseCoverage. rewrite Hm. reflexivity.
Qed.


End PositionFacts.

(* ===================================================================== *)
(** ** More on escaping *)
(* ===================================================================== *)

Lemma reRegExpChar_eq_backslash (c : ascii) :
  Lodash.reRegExpChar c = false -> c <> "\"%char.
Proof.
  intros Hc E. subst c. rewrite reRegExpChar_backslash in Hc. discriminate.
Qed.

(** X10: escaping keeps keyphrases apart: two keyphrases with the same
    escaped form are the same keyphrase. *)
Theorem escapeRegExp_injective (a b : string) :
  Lodash.escapeRegExp a = Lodash.escapeRegExp b -> a = b.
Proof.
  revert b. induction a as [|c a IH]; intros [|d b]; cbn [Lodash.escapeRegExp].
  - reflexivity.
  - destruct (Lodash.reRegExpChar d); discriminate.
  - destruct (Lodash.reRegExpChar c); discriminate.
  - destruct (Lodash.reRegExpChar c) eqn:Hc; destruct (Lodash.reRegExpChar d) eqn:Hd;
      intros E.
    + injection E as Ecd Eab. subst d. f_equal. apply IH. exact Eab.
    + injection E as Ed _. exfalso.
      apply (reRegExpChar_eq_backslash d Hd). symmetry. exact Ed.
    + injection E as Ec _. exfalso.
      apply (reRegExpChar_eq_backslash c Hc). exact Ec.
    + injection E as Ecd Eab. subst d. f_equal. apply IH. exact Eab.
Qed.

(* ===================================================================== *)
(** ** More on the table of assessments *)
(* ===================================================================== *)

Lemma skipn_nth_error {A : Type} (l : list A) (n : nat) (x : A) :
  nth_error l n = Some x -> exists rest, List.skipn n l = x :: rest.
Proof.
  revert l. induction n as [|n IH]; intros [|a l] Hn; cbn in *; try discriminate.
  - injection Hn as ->. eexists. reflexivity.
  - apply IH. exact Hn.
Qed.

(** X11: in no text does the rule of [normalPerson] and [normalPeople]
    return a match that stands right behind "mentally", "behaviorally" or
    "behaviourally". *)
Theorem normal_rule_never_after_exception
    (words phrase : list string) (index : nat) (exception : string) :
  In exception [ "mentally"; "behaviorally"; "behaviourally" ] ->
  nth_error words index = Some exception ->
  ~ In (S index) (InclusiveLanguage.notAfterMentallyOrBehaviorally words phrase).
Proof.
  intros Hex Hnth Hin.
  pose proof (rule_vetoes_exceptions words phrase (S index) exception Hin Hex) as Hveto.
  assert (InclusiveLanguage.tokenize exception = [ exception ]) as Htok.
  { destruct Hex as [<- | [<- | [<- | []]]]; reflexivity. }
  unfold InclusiveLanguage.precededBy in Hveto. rewrite Htok in Hveto.
  cbn [List.length Nat.leb andb] in Hveto.
  replace (S index - 1)%nat with index in Hveto by lia.
  destruct (skipn_nth_error words index exception Hnth) as [rest Hrest].
  rewrite Hrest in Hveto. cbn [InclusiveLanguage.startsWith] in Hveto.
  rewrite String.eqb_refl in Hveto. discriminate.
Qed.

(** X13: no two entries of the table have the same identifier, and no
    non-inclusive phrase is listed twice. *)
Theorem otherAssessments_distinct :
  NoDup (List.map InclusiveLanguage.identifier InclusiveLanguage.otherAssessments)
  /\ NoDup (List.flat_map InclusiveLanguage.nonInclusivePhrases
              InclusiveLanguage.otherAssessments).
Proof.
  split; cbn;
    repeat (apply NoDup_cons; [cbn; intuition discriminate|]); apply NoDup_nil.
Qed.

(* ===================================================================== *)
(** ** The selectors *)
(* ===================================================================== *)

Section Selectors.

Import Window.

Lemma get_two_names (object : value) (path first second : string) (defaultValue : value) :
  LodashGet.hasDot path = true ->
  LodashGet.stringToPath path = [ first; second ] ->
  isNullish object = false ->
  hasProperty object path = false ->
  LodashGet.get object path defaultValue
  = LodashGet.orDefault
      (if isNullish (getProperty object first)
       then Undefined
       else getProperty (getProperty object first) second)
      defaultValue.
Proof.
  intros Hdot Hpath Hobj Hown.
  unfold LodashGet.get, LodashGet.castPath, LodashGet.isKey.
  rewrite Hobj, Hdot, Hown, Hpath. cbn [negb orb andb LodashGet.baseGet LodashGet.follow].
  rewrite Hobj. reflexivity.
Qed.

Lemma get_nullish (object : value) (path : string) (defaultValue : value) :
  isNullish object = true -> LodashGet.get object path defaultValue = defaultValue.
Proof.
  intros Hobj. unfold LodashGet.get. rewrite Hobj. reflexivity.
Qed.

(** X14: on a page without script data, or none that is an object, the
    three selectors give false. *)
Theorem selectors_without_script_data (window : value) :
  isNullish window = true
  \/ (isNullish (getProperty window "wpseoScriptData") = true
      /\ hasProperty window "wpseoScriptData.woocommerceUpsell" = false
      /\ hasProperty window "wpseoScriptData.isWooCommerceSeoActive" = false
      /\ hasProperty window "wpseoScriptData.isWooCommerceActive" = false) ->
  WooSelectors.getIsWooSeoUpsell window = Bool false
  /\ WooSelectors.getIsWooSeoActive window = false
  /\ WooSelectors.getIsWooCommerceActive window = false.
Proof.
  unfold WooSelectors.getIsWooSeoUpsell, WooSelectors.getIsWooSeoActive,
    WooSelectors.getIsWooCommerceActive.
  intros [Hw | [Hdata [H1 [H2 H3]]]].
  - rewrite !get_nullish by exact Hw. repeat split.
  - destruct (isNullish window) eqn:Hw; [rewrite !get_nullish by exact Hw; repeat split|].
    rewrite (get_two_names window _ "wpseoScriptData" "woocommerceUpsell")
      by (reflexivity || assumption).
    rewrite (get_two_names window _ "wpseoScriptData" "isWooCommerceSeoActive")
      by (reflexivity || assumption).
    rewrite (get_two_names window _ "wpseoScriptData" "isWooCommerceActive")
      by (reflexivity || assumption).
    rewrite Hdata. repeat split.
Qed.

(** X15: on a page with script data, [getIsWooSeoUpsell] gives what the
    data holds, as it is, and false only where the data holds nothing or
    [undefined]; the other two selectors give the truth value of what the
    data holds. *)
Theorem selectors_with_script_data (window : value) :
  isNullish window = false ->
  isNullish (getProperty window "wpseoScriptData") = false ->
  hasProperty window "wpseoScriptData.woocommerceUpsell" = false ->
  hasProperty window "wpseoScriptData.isWooCommerceSeoActive" = false ->
  hasProperty window "wpseoScriptData.isWooCommerceActive" = false ->
  WooSelectors.getIsWooSeoUpsell window
  = LodashGet.orDefault
      (getProperty (getProperty window "wpseoScriptData") "woocommerceUpsell")
      (Bool false)
  /\ WooSelectors.getIsWooSeoActive window
     = toBoolean (getProperty (getProperty window "wpseoScriptData") "isWooCommerceSeoActive")
  /\ WooSelectors.getIsWooCommerceActive window
     = toBoolean (getProperty (getProperty window "wpseoScriptData") "isWooCommerceActive").
Proof.
  unfold WooSelectors.getIsWooSeoUpsell, WooSelectors.getIsWooSeoActive,
    WooSelectors.getIsWooCommerceActive.
  intros Hw Hdata H1 H2 H3.
  rewrite (get_two_names window _ "wpseoScriptData" "woocommerceUpsell")
    by (reflexivity || assumption).
  rewrite (get_two_names window _ "wpseoScriptData" "isWooCommerceSeoActive")
    by (reflexivity || assumption).
  rewrite (get_two_names window _ "wpseoScriptData" "isWooCommerceActive")
    by (reflexivity || assumption).
  rewrite Hdata. repeat split.
  - destruct (getProperty _ "isWooCommerceSeoActive"); reflexivity.
  - destruct (getProperty _ "isWooCommerceActive"); reflexivity.
Qed.

End Selectors.

(* ===================================================================== *)
(** ** These theorems at work on inputs *)
(* ===================================================================== *)

Lemma function_words_monotone_witness :
  (forall word, In word [ "the" ] -> In word [ "the"; "best" ])
  /\ 0 <= 5
  /\ adjustPosition (H := Model.helpers) (mkModuleState [ "the"; "best" ])
       "Best Kitchen Sink Reviews" 5
     <= adjustPosition (H := Model.helpers) (mkModuleState [ "the" ])
          "Best Kitchen Sink Reviews" 5.
Proof.
  assert (forall word, In word [ "the" ] -> In word [ "the"; "best" ]) as Hsub.
  { intros word [<- | []]. left. reflexivity. }
  split; [exact Hsub|]. split; [lia|].
  apply (proj2 (function_words_monotone (H := Model.helpers)
                  (mkModuleState [ "the" ]) (mkModuleState [ "the"; "best" ])
                  "Best Kitchen Sink Reviews" 5 Hsub)).
  lia.
Defined.

Lemma adjustPosition_negative_witness :
  -1 < 0
  /\ functionWords (mkModuleState [ "the" ]) <> []
  /\ Model.toLocaleLowerCase EmptyString = EmptyString
  /\ Model.getWords EmptyString WORD_BOUNDARY_WITH_HYPHEN = []
  /\ adjustPosition (H := Model.helpers) (mkModuleState [ "the" ]) "Kitchen Sink" (-1) = 0.
Proof.
  split; [lia|]. split; [discriminate|]. split; [reflexivity|]. split; [reflexivity|].
  apply (adjustPosition_negative (H := Model.helpers)).
  - lia.
  - discriminate.
  - reflexivity.
  - reflexivity.
Defined.

Lemma research_without_function_words_witness :
  getConfig Inputs.noFunctionWords "functionWords" = []
  /\ 0 < WordMatch.count (keywordMatched (H := Model.helpers) Inputs.kitchenGuide)
  /\ Model.run Inputs.kitchenGuide Inputs.noFunctionWords = mkMatchResult true true 4 false.
Proof.
  split; [reflexivity|]. split; [reflexivity|].
  apply (research_without_function_words (H := Model.helpers)
           Inputs.kitchenGuide Inputs.noFunctionWords initialState);
    reflexivity.
Defined.

Lemma research_position_bounds_witness :
  0 < WordMatch.count (keywordMatched (H := Model.helpers) Inputs.kitchenReviews)
  /\ 0 <= WordMatch.position (keywordMatched (H := Model.helpers) Inputs.kitchenReviews)
  /\ 0 <= position (Model.run Inputs.kitchenReviews Inputs.english)
          <= WordMatch.position (keywordMatched (H := Model.helpers) Inputs.kitchenReviews).
Proof.
  split; [reflexivity|]. split; [vm_compute; discriminate|].
  apply (research_position_bounds (H := Model.helpers)
           Inputs.kitchenReviews Inputs.english initialState).
  - reflexivity.
  - vm_compute. discriminate.
Defined.

Lemma exact_match_ignores_morphology_witness :
  0 < WordMatch.count (keywordMatched (H := Model.helpers) Inputs.kitchenGuide)
  /\ getConfig Inputs.english "functionWords"
     = getConfig (Model.researcher [ "the"; "a"; "to" ] []) "functionWords"
  /\ Model.run Inputs.kitchenGuide Inputs.english
     = Model.run Inputs.kitchenGuide (Model.researcher [ "the"; "a"; "to" ] []).
Proof.
  split; [reflexivity|]. split; [reflexivity|].
  apply (exact_match_ignores_morphology (H := Model.helpers)); reflexivity.
Defined.

Lemma no_match_ignores_function_words_witness :
  WordMatch.count (keywordMatched (H := Model.helpers) Inputs.sinksForKitchens) <= 0
  /\ getResearch Inputs.english "morphology"
     = getResearch Inputs.noFunctionWords "morphology"
  /\ Model.run Inputs.sinksForKitchens Inputs.english
     = Model.run Inputs.sinksForKitchens Inputs.noFunctionWords.
Proof.
  split; [vm_compute; discriminate|]. split; [reflexivity|].
  apply (no_match_ignores_function_words (H := Model.helpers)).
  - vm_compute. discriminate.
  - reflexivity.
Defined.

Lemma lower_ascii_idempotent (c : ascii) :
  Model.lower_ascii (Model.lower_ascii c) = Model.lower_ascii c.
Proof.
  destruct c as [[] [] [] [] [] [] [] []]; reflexivity.
Qed.

Lemma toLocaleLowerCase_idempotent (s : string) :
  Model.toLocaleLowerCase (Model.toLocaleLowerCase s) = Model.toLocaleLowerCase s.
Proof.
  induction s as [|c s IH]; cbn [Model.toLocaleLowerCase]; [reflexivity|].
  rewrite lower_ascii_idempotent, IH. reflexivity.
Qed.

Lemma stripFunctionWordsFromStart_case_witness :
  (forall s, Model.toLocaleLowerCase (Model.toLocaleLowerCase s) = Model.toLocaleLowerCase s)
  /\ stripFunctionWordsFromStart (H := Model.helpers) (mkModuleState [ "the"; "a" ])
       (Model.toLocaleLowerCase "The A")
     = stripFunctionWordsFromStart (H := Model.helpers) (mkModuleState [ "the"; "a" ]) "The A".
Proof.
  split; [exact toLocaleLowerCase_idempotent|].
  apply (stripFunctionWordsFromStart_case (H := Model.helpers)).
  exact toLocaleLowerCase_idempotent.
Defined.


Lemma escapeRegExp_injective_witness :
  Lodash.escapeRegExp "a.b" = Lodash.escapeRegExp (String "a" (String "." "b"))
  /\ "a.b" = String "a" (String "." "b").
Proof.
  split; [reflexivity|].
  apply (escapeRegExp_injective "a.b" (String "a" (String "." "b"))).
  reflexivity.
Defined.

Lemma normal_rule_never_after_exception_witness :
  In "mentally" [ "mentally"; "behaviorally"; "behaviourally" ]
  /\ nth_error [ "a"; "mentally"; "normal"; "person" ] 1 = Some "mentally"
  /\ ~ In 2%nat
         (InclusiveLanguage.notAfterMentallyOrBehaviorally
            [ "a"; "mentally"; "normal"; "person" ] [ "normal"; "person" ]).
Proof.
  split; [left; reflexivity|]. split; [reflexivity|].
  apply (normal_rule_never_after_exception
           [ "a"; "mentally"; "normal"; "person" ] [ "normal"; "person" ] 1 "mentally").
  - left. reflexivity.
  - reflexivity.
Defined.

Lemma selectors_without_script_data_witness :
  (Window.isNullish (Window.getProperty (Window.Object []) "wpseoScriptData") = true
   /\ Window.hasProperty (Window.Object []) "wpseoScriptData.woocommerceUpsell" = false
   /\ Window.hasProperty (Window.Object []) "wpseoScriptData.isWooCommerceSeoActive" = false
   /\ Window.hasProperty (Window.Object []) "wpseoScriptData.isWooCommerceActive" = false)
  /\ WooSelectors.getIsWooSeoUpsell (Window.Object []) = Window.Bool false
  /\ WooSelectors.getIsWooSeoActive (Window.Object []) = false
  /\ WooSelectors.getIsWooCommerceActive (Window.Object []) = false.
Proof.
  split; [repeat split|].
  apply (selectors_without_script_data (Window.Object [])).
  right. repeat split.
Defined.

Lemma selectors_with_script_data_witness :
  WooSelectors.getIsWooSeoUpsell
    (WooSelectors.page
       [ ("woocommerceUpsell", Window.Null); ("isWooCommerceSeoActive", Window.Str "1") ])
  = Window.Null
  /\ WooSelectors.getIsWooSeoActive
       (WooSelectors.page
          [ ("woocommerceUpsell", Window.Null); ("isWooCommerceSeoActive", Window.Str "1") ])
     = true
  /\ WooSelectors.getIsWooCommerceActive
       (WooSelectors.page
          [ ("woocommerceUpsell", Window.Null); ("isWooCommerceSeoActive", Window.Str "1") ])
     = false.
Proof.
  apply (selectors_with_script_data
           (WooSelectors.page
              [ ("woocommerceUpsell", Window.Null);
                ("isWooCommerceSeoActive", Window.Str "1") ]));
    reflexivity.
Defined.

(* ===================================================================== *)
(** ** When the keyphrase counts as the start of the title *)
(* ===================================================================== *)

(** X16: for an exact match the research reports position 0 exactly when
    the search of the title gives offset 0, or there are function words and
    every word in front of the offset, trimmed and in lower case, is one of
    them. *)
Theorem research_position_zero_iff
    (H : Helpers) (paper : Paper) (researcher : Researcher) (st : ModuleState) :
  0 < WordMatch.count (keywordMatched paper) ->
  (position (fst (findKeyphraseInSEOTitle paper researcher st)) = 0
   <-> (WordMatch.position (keywordMatched paper) = 0
        \/ (getConfig researcher "functionWords" <> []
            /\ forall word,
                In word
                  (getWords
                     (toLocaleLowerCase
                        (toLocaleLowerCase
                           (JS.substr0 (getTitle paper)
                              (WordMatch.position (keywordMatched paper)))))
                     WORD_BOUNDARY_WITH_HYPHEN)
                -> In (toLocaleLowerCase (trim word))
                     (getConfig researcher "functionWords")))).
Proof.
  intros Hc. rewrite findKeyphraseInSEOTitle_eq.
  apply Z.ltb_lt in Hc. rewrite Hc. cbn [fst position].
  pose proof (strip_true_iff (stateAfter researcher)
                (JS.substr0 (getTitle paper) (WordMatch.position (keywordMatched paper))))
    as Hstrip.
  unfold titleWordsOf, lookedUp in Hstrip. cbn [stateAfter functionWords] in Hstrip.
  destruct (adjustPosition_cases (stateAfter researcher) (getTitle paper)
              (WordMatch.position (keywordMatched paper)))
    as [[E [C | [Hne Hs]]] | [E C]]; rewrite E.
  - split; [intros _; left; exact C | reflexivity].
  - split; [|reflexivity]. intros _. right. split; [exact Hne|].
    apply Hstrip. exact Hs.
  - split; [intros E0; left; exact E0|].
    intros [E0 | [Hne Hall]]; [exact E0|].
    destruct C as [C | [C | C]]; [exact C | exfalso; apply Hne; exact C |].
    apply Hstrip in Hall. rewrite Hall in C. discriminate.
Qed.

Lemma research_position_zero_iff_witness :
  0 < WordMatch.count (keywordMatched (H := Model.helpers) Inputs.kitchenGuide)
  /\ position (Model.run Inputs.kitchenGuide Inputs.english) = 0
  /\ WordMatch.position (keywordMatched (H := Model.helpers) Inputs.kitchenGuide) = 4.
Proof.
  split; [reflexivity|]. split; [|reflexivity].
  apply (research_position_zero_iff Model.helpers
           Inputs.kitchenGuide Inputs.english initialState).
  - reflexivity.
  - right. split; [discriminate|].
    intros word [<- | []]. left. reflexivity.
Defined.


